(** * Onboarding API route and registration form of the issuing-treasury demo

    A shallow embedding of
      - the onboarding request handler ([handler], [onboard], its
        [validationSchema] and the account-update payload [onboardingData]),
      - the password rules of the registration page's [validationSchema],
    together with the fragment of JavaScript and of the Yup validation
    library that the two files rely on. *)

From Stdlib Require Import List String Ascii Bool Arith NArith ZArith Lia.
From Stdlib Require Import DecimalString.
Import ListNotations.
Local Open Scope string_scope.
Set Warnings "-register-all".

(** ** JavaScript strings and values *)

Module Js.

(** A JavaScript string is a sequence of UTF-16 code units; [length] is
    the number of code units, as [String.prototype.length] is. *)
Definition jsstring := list N.

(** A source literal made of ASCII characters. *)
Definition lit (s : string) : jsstring :=
  map N_of_ascii (list_ascii_of_string s).

Definition jsstring_eqb (a b : jsstring) : bool :=
  if list_eq_dec N.eq_dec a b then true else false.

(** The decimal numeral of a natural number, as number-to-string
    conversion in a template literal prints it. *)
Definition decimal (n : nat) : string :=
  NilEmpty.string_of_uint (Nat.to_uint n).

(** Values that occur in request bodies and in API parameters.  An object
    keeps its properties in insertion order. *)
Inductive value :=
| VUndefined
| VBool (b : bool)
| VNum (n : Z)
| VStr (s : jsstring)
| VObj (props : list (string * value)).

(** ToBoolean *)
Definition truthy (v : value) : bool :=
  match v with
  | VUndefined => false
  | VBool b => b
  | VNum n => negb (Z.eqb n 0)
  | VStr s => negb (Nat.eqb (List.length s) 0)
  | VObj _ => true
  end.

(** [a && b] *)
Definition js_and (a b : value) : value :=
  if truthy a then b else a.

(** Defining property [k]: an existing key keeps its position and takes
    the new value, a new key goes last. *)
Fixpoint define_prop (k : string) (v : value) (o : list (string * value))
  : list (string * value) :=
  match o with
  | [] => [(k, v)]
  | (k', v') :: rest =>
      if String.eqb k k' then (k, v) :: rest
      else (k', v') :: define_prop k v rest
  end.

Fixpoint get_prop (k : string) (o : list (string * value)) : option value :=
  match o with
  | [] => None
  | (k', v) :: rest => if String.eqb k k' then Some v else get_prop k rest
  end.

(** The own enumerable properties that [...src] copies: those of an
    object, the indexed code units of a string, none for other
    primitives. *)
Fixpoint string_props (i : nat) (s : jsstring) : list (string * value) :=
  match s with
  | [] => []
  | c :: rest => (decimal i, VStr [c]) :: string_props (S i) rest
  end.

Definition own_props (src : value) : list (string * value) :=
  match src with
  | VObj props => props
  | VStr s => string_props 0 s
  | _ => []
  end.

(** A member of an object literal: [k: v] or [...src]. *)
Inductive member :=
| Field (k : string) (v : value)
| Spread (src : value).

Definition define_member (o : list (string * value)) (m : member)
  : list (string * value) :=
  match m with
  | Field k v => define_prop k v o
  | Spread src =>
      fold_left (fun acc kv => define_prop (fst kv) (snd kv) acc)
                (own_props src) o
  end.

(** An object literal [{ m1, m2, ... }], evaluated left to right. *)
Definition obj (ms : list member) : value :=
  VObj (fold_left define_member ms []).

(** [v.k1.k2...]; [None] when a property on the way is absent. *)
Fixpoint at_path (v : value) (path : list string) : option value :=
  match path with
  | [] => Some v
  | k :: rest =>
      match v with
      | VObj props =>
          match get_prop k props with
          | Some v' => at_path v' rest
          | None => None
          end
      | _ => None
      end
  end.

(** The own property names of an object. *)
Definition keys (v : value) : list string :=
  match v with
  | VObj props => map fst props
  | _ => []
  end.

(** A thrown [Error]: its [message] and its [stack], when it has one. *)
Record Error := mkError {
  error_message : jsstring;
  error_stack : option jsstring
}.

End Js.
Import Js.

(** ** The fragment of Yup used by the two schemas *)

Module Yup.

(** A test of a schema over values of type [V]; [None] is [undefined]. *)
Record Test (V : Type) := mkTest {
  test_message : jsstring;
  test_passes : option V -> bool
}.
Arguments mkTest {V}.
Arguments test_message {V}.
Arguments test_passes {V}.

(** [Yup.string().max(n)], with the default message
    [${path} must be at most ${max} characters]. *)
Definition string_max (path : string) (n : nat) : Test jsstring :=
  mkTest (lit (path ++ " must be at most " ++ decimal n ++ " characters"))
         (fun v => match v with
                   | None => true
                   | Some s => Nat.leb (List.length s) n
                   end).

(** [.min(n, message)] *)
Definition string_min (n : nat) (message : string) : Test jsstring :=
  mkTest (lit message)
         (fun v => match v with
                   | None => true
                   | Some s => Nat.leb n (List.length s)
                   end).

(** [.required(message)] on a string schema: an absent value and the
    empty string are both missing. *)
Definition string_required (message : string) : Test jsstring :=
  mkTest (lit message)
         (fun v => match v with
                   | None => false
                   | Some s => negb (Nat.eqb (List.length s) 0)
                   end).

(** A regular expression that is one character class [[lo-hi]]. *)
Record CharClass := mkClass { class_lo : ascii; class_hi : ascii }.

(** [s.search(re) !== -1] *)
Definition search (re : CharClass) (s : jsstring) : bool :=
  existsb (fun c => N.leb (N_of_ascii (class_lo re)) c
                    && N.leb c (N_of_ascii (class_hi re))) s.

(** [.matches(re, message)] *)
Definition string_matches (re : CharClass) (message : string)
  : Test jsstring :=
  mkTest (lit message)
         (fun v => match v with
                   | None => true
                   | Some s => search re s
                   end).

(** [.email(message)]: a match of Yup's e-mail expression [rEmail], with
    the empty string let through. *)
Definition string_email (rEmail : jsstring -> bool) (message : string)
  : Test jsstring :=
  mkTest (lit message)
         (fun v => match v with
                   | None => true
                   | Some s => Nat.eqb (List.length s) 0 || rEmail s
                   end).

(** [.required(message)] on a boolean schema. *)
Definition boolean_required (message : string) : Test bool :=
  mkTest (lit message)
         (fun v => match v with
                   | None => false
                   | Some _ => true
                   end).

(** Validating one field with [abortEarly: false]: every test runs, and
    the messages of all failing tests are kept, in the order of the
    tests. *)
Definition field_errors {V} (tests : list (Test V)) (v : option V)
  : list jsstring :=
  map test_message (filter (fun t => negb (test_passes t v)) tests).

(** The [message] of a [ValidationError] built from the collected
    [errors]: the sole message, or a count when there are several. *)
Definition ValidationError_message (errors : list jsstring) : jsstring :=
  if Nat.ltb 1 (List.length errors)
  then lit (decimal (List.length errors) ++ " errors occurred")
  else hd [] errors.

End Yup.

(** ** The onboarding endpoint *)

Module Onboard.

(** *** Requests, responses and the outside world *)

(** The authenticated session: the user's email and the identifier of the
    connected account. *)
Record Session := mkSession {
  email : jsstring;
  accountId : jsstring
}.

(** [req.body], read at the type the handler declares for it:
    [{ businessName: string; skipOnboarding?: boolean }], where a property
    that the client left out is [undefined] ([None]). *)
Record Body := mkBody {
  businessName : option jsstring;
  skipOnboarding : option bool
}.

Record Request := mkRequest {
  method : option jsstring;
  body : Body
}.

(** The response envelope
    [{ success: boolean, data?: {...}, error?: { message, details? } }]. *)
Record ErrorBody := mkErrorBody {
  message : jsstring;
  details : option jsstring
}.

Record Data := mkData { redirectUrl : jsstring }.

Record ApiResponse := mkApiResponse {
  success : bool;
  data : option Data;
  error : option ErrorBody
}.

(** Modelled from the spec: [apiResponse] of src/types/api-response is not
    among the sources; it builds the response envelope from the
    [success], [data] and [error] it is given. *)
Definition apiResponse (success : bool) (data : option Data)
           (error : option ErrorBody) : ApiResponse :=
  mkApiResponse success data error.

(** [res.status(code).json(payload)] *)
Record Response := mkResponse {
  status : nat;
  json : ApiResponse
}.

(** A call that leaves the process: to the session provider or to the
    payments API. *)
Inductive Call :=
| CallGetSession
| CallAccountsUpdate (account : jsstring) (params : value)
| CallCreateOnboardingUrl (account : jsstring).

(** What is outside the two source files: the demo-mode switch, the
    constant [TOS_ACCEPTANCE] of src/utils/demo-helpers, and the answers
    of the session provider and of the payments API, each of which either
    returns or throws. *)
Record Env := mkEnv {
  isDemoMode : bool;
  TOS_ACCEPTANCE : value;
  session_provider : Error + Session;
  payments_update : jsstring -> value -> Error + unit;
  payments_onboarding_url : jsstring -> Error + jsstring
}.

(** *** Computations that call out and may throw

    A computation extends the log of the calls made so far and either
    throws ([inl]) or returns ([inr]).  The log is kept when it throws. *)
Definition M (A : Type) : Type := list Call -> list Call * (Error + A).

Definition ret {A} (a : A) : M A := fun log => (log, inr a).

Definition bind {A B} (c : M A) (k : A -> M B) : M B :=
  fun log =>
    match c log with
    | (log', inl e) => (log', inl e)
    | (log', inr a) => k a log'
    end.

(** [try { c } catch (error) { h error }] *)
Definition try_catch {A} (c : M A) (h : Error -> M A) : M A :=
  fun log =>
    match c log with
    | (log', inl e) => h e log'
    | (log', inr a) => (log', inr a)
    end.

(** An awaited external call: it is logged, then its answer is returned
    or thrown. *)
Definition external {A} (c : Call) (answer : Error + A) : M A :=
  fun log => ((log ++ [c])%list, answer).

Declare Scope onboard_scope.
Notation "x <- c ;; k" := (bind c (fun x => k))
  (at level 100, c at next level, right associativity) : onboard_scope.
Local Open Scope onboard_scope.

Definition getSessionForServerSide (env : Env) : M Session :=
  external CallGetSession (session_provider env).

Definition stripe_accounts_update (env : Env) (account : jsstring)
           (params : value) : M unit :=
  external (CallAccountsUpdate account params)
           (payments_update env account params).

Definition createAccountOnboardingUrl (env : Env) (account : jsstring)
  : M jsstring :=
  external (CallCreateOnboardingUrl account)
           (payments_onboarding_url env account).

(** *** Validation *)

(** [Yup.object().shape({ businessName, skipOnboarding? })]: the second
    field is part of the shape only when the spread adds it. *)
Record ObjectSchema := mkSchema {
  shape_businessName : list (Yup.Test jsstring);
  shape_skipOnboarding : option (list (Yup.Test bool))
}.

Definition validationSchema (demo : bool) : ObjectSchema :=
  {| shape_businessName :=
       [ Yup.string_max "businessName" 255;
         Yup.string_required "Business name is required" ];
     shape_skipOnboarding :=
       if demo
       then Some [ Yup.boolean_required "Skip onboarding choice required" ]
       else None |}.

(** The failures that [schema.validate(b, { abortEarly: false })]
    collects, field after field. *)
Definition validation_errors (schema : ObjectSchema) (b : Body)
  : list jsstring :=
  (Yup.field_errors (shape_businessName schema) (businessName b)
   ++ match shape_skipOnboarding schema with
      | Some tests => Yup.field_errors tests (skipOnboarding b)
      | None => []
      end)%list.

(** [schema.validate(b, { abortEarly: false })]: resolves ([inr]) when
    nothing failed, and rejects otherwise with a [ValidationError] whose
    [message] is given ([inl]). *)
Definition validate (schema : ObjectSchema) (b : Body) : jsstring + unit :=
  match validation_errors schema b with
  | [] => inr tt
  | errors => inl (Yup.ValidationError_message errors)
  end.

(** *** The handler *)

Definition undefined_or_string (s : option jsstring) : value :=
  match s with Some s => VStr s | None => VUndefined end.

Definition undefined_or_boolean (b : option bool) : value :=
  match b with Some b => VBool b | None => VUndefined end.

(** The [Stripe.AccountUpdateParams] literal of [onboard]. *)
Definition onboardingData (env : Env) (email : jsstring)
           (businessName : option jsstring) (skipOnboarding : option bool)
  : value :=
  obj [
    Field "business_profile"
      (obj [ Field "name" (undefined_or_string businessName) ]);
    Spread (js_and (VBool (isDemoMode env)) (obj [
      Field "business_type" (VStr (lit "individual"));
      Field "business_profile" (obj [
        Field "mcc" (VStr (lit "5734"));
        Field "product_description" (VStr (lit "Some demo product"));
        Field "url" (VStr (lit "https://some-company.com")) ]);
      Field "individual" (obj [
        Field "address" (obj [
          Field "line1" (VStr (lit "address_full_match"));
          Field "city" (VStr (lit "South San Francisco"));
          Field "state" (VStr (lit "CA"));
          Field "postal_code" (VStr (lit "94080"));
          Field "country" (VStr (lit "US")) ]);
        Field "dob" (obj [
          Field "day" (VNum 1);
          Field "month" (VNum 1);
          Field "year" (VNum 1901) ]);
        Field "email" (VStr email);
        Field "first_name" (VStr (lit "John"));
        Field "last_name" (VStr (lit "Smith"));
        Field "phone" (VStr (lit "0000000000")) ]);
      Spread (js_and (undefined_or_boolean skipOnboarding)
                     (obj [ Field "tos_acceptance" (TOS_ACCEPTANCE env) ]));
      Field "settings" (obj [
        Field "card_issuing"
          (obj [ Field "tos_acceptance" (TOS_ACCEPTANCE env) ]);
        Field "treasury"
          (obj [ Field "tos_acceptance" (TOS_ACCEPTANCE env) ]) ]) ]))
  ].

Definition onboard (env : Env) (req : Request) : M Response :=
  session <- getSessionForServerSide env ;;
  let email := email session in
  let accountId := accountId session in
  let businessName := businessName (body req) in
  let skipOnboarding := skipOnboarding (body req) in
  match validate (validationSchema (isDemoMode env))
                 (mkBody businessName skipOnboarding) with
  | inl error_message =>
      ret (mkResponse 400
             (apiResponse false None
                (Some (mkErrorBody error_message None))))
  | inr _ =>
      let onboardingData :=
        onboardingData env email businessName skipOnboarding in
      _ <- stripe_accounts_update env accountId onboardingData ;;
      if truthy (js_and (VBool (isDemoMode env))
                        (undefined_or_boolean skipOnboarding))
      then
        ret (mkResponse 200
               (apiResponse true (Some (mkData (lit "/"))) None))
      else
        onboardingUrl <- createAccountOnboardingUrl env accountId ;;
        ret (mkResponse 200
               (apiResponse true (Some (mkData onboardingUrl)) None))
  end.

Definition handler (env : Env) (req : Request) : M Response :=
  try_catch
    (match method req with
     | Some m =>
         if jsstring_eqb m (lit "POST")
         then onboard env req
         else ret (mkResponse 400
                     (apiResponse false None
                        (Some (mkErrorBody (lit "Bad Request") None))))
     | None =>
         ret (mkResponse 400
                (apiResponse false None
                   (Some (mkErrorBody (lit "Bad Request") None))))
     end)
    (fun error =>
       ret (mkResponse 500
              (apiResponse false None
                 (Some (mkErrorBody (error_message error)
                                    (error_stack error)))))).

(** Serving one request: the calls made, in order, and the outcome. *)
Definition serve (env : Env) (req : Request)
  : list Call * (Error + Response) :=
  handler env req [].

End Onboard.

(** ** The registration form *)

Module Register.

(** The form values that are validated; Formik hands an empty input to
    the schema as [undefined] ([None]). *)
Record Values := mkValues {
  email : option jsstring;
  password : option jsstring
}.

Definition getCharacterValidationError (str : string) : string :=
  "Your password must have at least 1 " ++ str ++ " character".

(** [/[0-9]/], [/[a-z]/] and [/[A-Z]/] *)
Definition re_digit : Yup.CharClass := Yup.mkClass "0" "9".
Definition re_lowercase : Yup.CharClass := Yup.mkClass "a" "z".
Definition re_uppercase : Yup.CharClass := Yup.mkClass "A" "Z".

Record ObjectSchema := mkSchema {
  shape_email : list (Yup.Test jsstring);
  shape_password : list (Yup.Test jsstring)
}.

(** The schema of the page; [rEmail] is the e-mail expression of the Yup
    release in use. *)
Definition validationSchema (rEmail : jsstring -> bool) : ObjectSchema :=
  {| shape_email :=
       [ Yup.string_email rEmail "Must be a valid email";
         Yup.string_max "email" 255;
         Yup.string_required "Email is required" ];
     shape_password :=
       [ Yup.string_max "password" 255;
         Yup.string_required "Password is required";
         Yup.string_min 8 "Password must have at least 8 characters";
         Yup.string_matches re_digit (getCharacterValidationError "digit");
         Yup.string_matches re_lowercase
           (getCharacterValidationError "lowercase");
         Yup.string_matches re_uppercase
           (getCharacterValidationError "uppercase") ] |}.

(** The failures of the password field and of the whole form, collected
    without stopping at the first one, as Formik runs the schema. *)
Definition password_errors (rEmail : jsstring -> bool)
           (password : option jsstring) : list jsstring :=
  Yup.field_errors (shape_password (validationSchema rEmail)) password.

Definition validation_errors (rEmail : jsstring -> bool) (v : Values)
  : list jsstring :=
  (Yup.field_errors (shape_email (validationSchema rEmail)) (email v)
   ++ password_errors rEmail (password v))%list.

End Register.

(** ** The rules of the registration form in words *)

Module RegisterRules.

(** Some code unit of [s] lies between [lo] and [hi]. *)
Definition has_char_between (lo hi : ascii) (s : jsstring) : Prop :=
  exists c, In c s /\ (N_of_ascii lo <= c)%N /\ (c <= N_of_ascii hi)%N.

Definition has_digit (s : jsstring) : Prop := has_char_between "0" "9" s.
Definition has_lowercase (s : jsstring) : Prop := has_char_between "a" "z" s.
Definition has_uppercase (s : jsstring) : Prop := has_char_between "A" "Z" s.

(** A password that the form lets through. *)
Definition acceptable_password (p : option jsstring) : Prop :=
  exists s, p = Some s
            /\ 8 <= List.length s <= 255
            /\ has_digit s /\ has_lowercase s /\ has_uppercase s.

(** An e-mail address that the form lets through. *)
Definition acceptable_email (rEmail : jsstring -> bool)
           (e : option jsstring) : Prop :=
  exists s, e = Some s /\ 1 <= List.length s <= 255 /\ rEmail s = true.

End RegisterRules.

(** ** Properties of the onboarding endpoint *)

Module OnboardProps.
Import Onboard.

(** *** Vocabulary of the statements *)

Definition POST : jsstring := lit "POST".

(** The three shapes of response the handler sends. *)
Definition client_error (msg : jsstring) : Response :=
  mkResponse 400 (mkApiResponse false None (Some (mkErrorBody msg None))).

Definition server_error (e : Error) : Response :=
  mkResponse 500
    (mkApiResponse false None
       (Some (mkErrorBody (error_message e) (error_stack e)))).

Definition redirect_to (url : jsstring) : Response :=
  mkResponse 200 (mkApiResponse true (Some (mkData url)) None).

(** Calls to the payments API, as opposed to the session lookup. *)
Definition is_payments_call (c : Call) : bool :=
  match c with
  | CallGetSession => false
  | CallAccountsUpdate _ _ => true
  | CallCreateOnboardingUrl _ => true
  end.

(** The body passes validation. *)
Definition passes_validation (env : Env) (b : Body) : Prop :=
  validate (validationSchema (isDemoMode env)) b = inr tt.

(** The user chose to skip onboarding, and the demo lets them. *)
Definition skips (env : Env) (b : Body) : bool :=
  truthy (js_and (VBool (isDemoMode env))
                 (undefined_or_boolean (skipOnboarding b))).

(** A business name that the schema accepts: present, not empty and of
    at most 255 code units. *)
Definition name_valid (n : option jsstring) : Prop :=
  exists s, n = Some s /\ 1 <= List.length s <= 255.

(** A business name that is empty (left out, or the empty string) or
    longer than 255 code units. *)
Definition name_empty_or_too_long (n : option jsstring) : Prop :=
  match n with
  | None => True
  | Some s => List.length s = 0 \/ 255 < List.length s
  end.

(** The rules of the endpoint in the words of its contract: the business
    name is required and has at most 255 characters; in demo mode the
    skip-onboarding choice is required. *)
Definition businessName_failures (n : option jsstring) : list jsstring :=
  match n with
  | None => [lit "Business name is required"]
  | Some s =>
      if Nat.eqb (List.length s) 0
      then [lit "Business name is required"]
      else if Nat.ltb 255 (List.length s)
           then [lit "businessName must be at most 255 characters"]
           else []
  end.

Definition skipOnboarding_failures (demo : bool) (skip : option bool)
  : list jsstring :=
  if demo
  then match skip with
       | None => [lit "Skip onboarding choice required"]
       | Some _ => []
       end
  else [].

(** *** Sample worlds, for instances of the theorems *)

Definition sample_session : Session :=
  mkSession (lit "jenny@example.com") (lit "acct_1032D82eZvKYlo2C").

Definition sample_tos : value :=
  obj [ Field "date" (VNum 1691518261); Field "ip" (VStr (lit "127.0.0.1")) ].

Definition sample_url : jsstring :=
  lit "https://connect.example.com/setup/s/acct_1032D82eZvKYlo2C".

(** A world in which every external call succeeds. *)
Definition sample_env (demo : bool) : Env :=
  mkEnv demo sample_tos (inr sample_session)
        (fun _ _ => inr tt) (fun _ => inr sample_url).

Definition sample_error : Error :=
  mkError (lit "No such account: acct_1032D82eZvKYlo2C")
          (Some (lit "StripeInvalidRequestError: No such account")).

(** A world in which the account update is refused. *)
Definition refusing_env (demo : bool) : Env :=
  mkEnv demo sample_tos (inr sample_session)
        (fun _ _ => inl sample_error) (fun _ => inr sample_url).

Definition post (name : option jsstring) (skip : option bool) : Request :=
  mkRequest (Some POST) (mkBody name skip).


(** The same request with another skip-onboarding choice. *)
Definition with_skip (req : Request) (skip : option bool) : Request :=
  mkRequest (method req) (mkBody (businessName (body req)) skip).

(** *** Equations of the handler *)

Lemma body_eta (b : Body) : mkBody (businessName b) (skipOnboarding b) = b.
Proof. destruct b; reflexivity. Qed.

(** [onboard], run from an empty log, by cases on the outside world. *)
Lemma onboard_equation (env : Env) (req : Request) :
  onboard env req [] =
  match session_provider env with
  | inl e => ([CallGetSession], inl e)
  | inr s =>
      match validate (validationSchema (isDemoMode env)) (body req) with
      | inl msg => ([CallGetSession], inr (client_error msg))
      | inr _ =>
          let params :=
            onboardingData env (email s) (businessName (body req))
                           (skipOnboarding (body req)) in
          let update := CallAccountsUpdate (accountId s) params in
          match payments_update env (accountId s) params with
          | inl e => ([CallGetSession; update], inl e)
          | inr _ =>
              if skips env (body req)
              then ([CallGetSession; update], inr (redirect_to (lit "/")))
              else
                let create := CallCreateOnboardingUrl (accountId s) in
                match payments_onboarding_url env (accountId s) with
                | inl e => ([CallGetSession; update; create], inl e)
                | inr url =>
                    ([CallGetSession; update; create],
                     inr (redirect_to url))
                end
          end
      end
  end.
Proof.
  unfold onboard, bind, getSessionForServerSide, stripe_accounts_update,
    createAccountOnboardingUrl, external, ret, skips.
  rewrite body_eta. cbn [app].
  destruct (session_provider env) as [e | s]; [reflexivity |].
  destruct (validate _ _) as [msg | []]; [reflexivity |].
  cbn [app].
  destruct (payments_update env _ _) as [e | []]; [reflexivity |].
  destruct (truthy _); [reflexivity |].
  cbn [app].
  destruct (payments_onboarding_url env _); reflexivity.
Qed.

(** A POST request is served by [onboard]; what [onboard] throws becomes
    a server error. *)
Lemma serve_post (env : Env) (req : Request) :
  method req = Some POST ->
  serve env req =
  match onboard env req [] with
  | (log, inl e) => (log, inr (server_error e))
  | (log, inr res) => (log, inr res)
  end.
Proof.
  intros Hm. unfold serve, handler, try_catch. rewrite Hm.
  unfold jsstring_eqb.
  destruct (list_eq_dec N.eq_dec POST (lit "POST")) as [_ | Hne];
    [| exfalso; apply Hne; reflexivity].
  destruct (onboard env req []) as [log [e | res]]; reflexivity.
Qed.

(** Any other request is answered at once. *)
Lemma serve_other (env : Env) (req : Request) :
  method req <> Some POST ->
  serve env req = ([], inr (client_error (lit "Bad Request"))).
Proof.
  intros Hm. unfold serve, handler, try_catch.
  destruct (method req) as [m |]; [| reflexivity].
  unfold jsstring_eqb.
  destruct (list_eq_dec N.eq_dec m (lit "POST")) as [-> | _];
    [exfalso; apply Hm; reflexivity | reflexivity].
Qed.

Lemma method_dec (m : option jsstring) : {m = Some POST} + {m <> Some POST}.
Proof. decide equality. apply (list_eq_dec N.eq_dec). Defined.

(** The handler itself never throws: every request gets a response. *)
Lemma serve_responds (env : Env) (req : Request) :
  exists log res, serve env req = (log, inr res).
Proof.
  destruct (method_dec (method req)) as [Hm | Hm].
  - rewrite (serve_post env req Hm).
    destruct (onboard env req []) as [log [e | res]]; eauto.
  - rewrite (serve_other env req Hm). eauto.
Qed.

(** *** Validation *)

(** The schema collects exactly the failures of the contract. *)
Lemma validation_errors_equation (demo : bool) (b : Body) :
  validation_errors (validationSchema demo) b =
  (businessName_failures (businessName b)
   ++ skipOnboarding_failures demo (skipOnboarding b))%list.
Proof.
  unfold validation_errors, businessName_failures, skipOnboarding_failures.
  f_equal.
  - unfold Yup.field_errors, validationSchema, shape_businessName.
    destruct (businessName b) as [s |]; [| reflexivity].
    cbn [filter map Yup.test_passes Yup.test_message Yup.string_max
         Yup.string_required negb].
    unfold Nat.ltb.
    destruct (Nat.eqb (List.length s) 0) eqn:E0.
    + apply Nat.eqb_eq in E0. rewrite E0. reflexivity.
    + apply Nat.eqb_neq in E0.
      destruct (Nat.leb (List.length s) 255) eqn:E1.
      * apply Nat.leb_le in E1.
        destruct (Nat.leb 256 (List.length s)) eqn:E2;
          [apply Nat.leb_le in E2; lia | reflexivity].
      * apply Nat.leb_gt in E1.
        destruct (Nat.leb 256 (List.length s)) eqn:E2;
          [reflexivity | apply Nat.leb_gt in E2; lia].
  - destruct demo; [| reflexivity].
    destruct (skipOnboarding b); reflexivity.
Qed.

Lemma businessName_failures_valid (n : option jsstring) :
  businessName_failures n = [] <-> name_valid n.
Proof.
  unfold businessName_failures, name_valid. split.
  - destruct n as [s |]; [| discriminate].
    destruct (Nat.eqb (List.length s) 0) eqn:E0; [discriminate |].
    destruct (Nat.ltb 255 (List.length s)) eqn:E1; [discriminate |].
    intros _. exists s. apply Nat.eqb_neq in E0. apply Nat.ltb_ge in E1.
    split; [reflexivity | lia].
  - intros [s [-> [Hlo Hhi]]].
    destruct (Nat.eqb (List.length s) 0) eqn:E0;
      [apply Nat.eqb_eq in E0; lia |].
    destruct (Nat.ltb 255 (List.length s)) eqn:E1;
      [apply Nat.ltb_lt in E1; lia | reflexivity].
Qed.

(** An empty or too long business name fails exactly one rule. *)
Lemma businessName_failures_invalid (n : option jsstring) :
  name_empty_or_too_long n -> exists m, businessName_failures n = [m].
Proof.
  unfold name_empty_or_too_long, businessName_failures.
  destruct n as [s |]; [| eauto].
  intros Hbad.
  destruct (Nat.eqb (List.length s) 0) eqn:E0; [eauto |].
  destruct (Nat.ltb 255 (List.length s)) eqn:E1; [eauto |].
  apply Nat.eqb_neq in E0. apply Nat.ltb_ge in E1. lia.
Qed.

(** When validation passes. *)
Lemma passes_validation_iff (env : Env) (b : Body) :
  passes_validation env b <->
  name_valid (businessName b)
  /\ (isDemoMode env = true -> skipOnboarding b <> None).
Proof.
  unfold passes_validation, validate.
  rewrite validation_errors_equation.
  rewrite <- businessName_failures_valid.
  unfold skipOnboarding_failures.
  destruct (businessName_failures (businessName b)) as [| m ms].
  - destruct (isDemoMode env).
    + destruct (skipOnboarding b); cbn [app]; split.
      * intros _. split; [reflexivity | discriminate].
      * reflexivity.
      * discriminate.
      * intros [_ H]. exfalso. apply H; reflexivity.
    + cbn [app]. split; [| reflexivity].
      intros _. split; [reflexivity | discriminate].
  - cbn [app]. split; [discriminate | intros [H _]; discriminate].
Qed.

(** A rejected body is answered with the message of the validation
    error. *)
Lemma validate_rejects (demo : bool) (b : Body) :
  validation_errors (validationSchema demo) b <> [] ->
  validate (validationSchema demo) b =
  inl (Yup.ValidationError_message
         (validation_errors (validationSchema demo) b)).
Proof.
  unfold validate.
  destruct (validation_errors (validationSchema demo) b);
    [intros H; exfalso; apply H; reflexivity | reflexivity].
Qed.

(** *** Requests that are turned away *)

(** C7: a request whose method is not POST is answered with status 400,
    [success = false] and the message "Bad Request", and no external call
    is made at all: no account update, no onboarding-URL request. *)
Theorem non_post_is_bad_request (env : Env) (req : Request) :
  method req <> Some (lit "POST") ->
  serve env req =
  ([], inr (mkResponse 400
              (mkApiResponse false None
                 (Some (mkErrorBody (lit "Bad Request") None))))).
Proof. exact (serve_other env req). Qed.

Lemma non_post_is_bad_request_witness :
  method (mkRequest (Some (lit "GET")) (mkBody None None))
    <> Some (lit "POST")
  /\ serve (sample_env true)
           (mkRequest (Some (lit "GET")) (mkBody None None)) =
     ([], inr (mkResponse 400
                 (mkApiResponse false None
                    (Some (mkErrorBody (lit "Bad Request") None))))).
Proof.
  assert (H : method (mkRequest (Some (lit "GET")) (mkBody None None))
              <> Some (lit "POST")) by (vm_compute; discriminate).
  split; [exact H | exact (non_post_is_bad_request _ _ H)].
Defined.

(** C9: when the body of a POST request fails validation, no call to the
    payments API is made, whatever the session provider answers; and once
    the session is there, the only call is the session lookup and the
    response is the client error with the validation message. *)
Theorem validation_failure_makes_no_payments_call
        (env : Env) (req : Request) (msg : jsstring) :
  method req = Some POST ->
  validate (validationSchema (isDemoMode env)) (body req) = inl msg ->
  filter is_payments_call (fst (serve env req)) = []
  /\ (forall s, session_provider env = inr s ->
                serve env req = ([CallGetSession], inr (client_error msg))).
Proof.
  intros Hm Hv. rewrite (serve_post env req Hm), onboard_equation, Hv.
  split.
  - destruct (session_provider env); reflexivity.
  - intros s ->. reflexivity.
Qed.

Lemma validation_failure_makes_no_payments_call_witness :
  method (post (Some []) (Some true)) = Some POST
  /\ validate (validationSchema (isDemoMode (sample_env true)))
              (body (post (Some []) (Some true)))
     = inl (lit "Business name is required")
  /\ filter is_payments_call
            (fst (serve (sample_env true) (post (Some []) (Some true)))) = []
  /\ serve (sample_env true) (post (Some []) (Some true)) =
     ([CallGetSession],
      inr (client_error (lit "Business name is required"))).
Proof.
  pose proof (validation_failure_makes_no_payments_call
                (sample_env true) (post (Some []) (Some true))
                (lit "Business name is required")
                eq_refl eq_refl) as [Hlog Hres].
  split; [reflexivity |]. split; [reflexivity |].
  split; [exact Hlog | exact (Hres sample_session eq_refl)].
Defined.

(** C4: a POST request whose business name is empty or longer than 255
    characters is answered with status 400 and [success = false]; the
    message is that of the validation error built from all the failures
    collected (the failure of the business name and, in demo mode, that
    of a missing skip-onboarding choice): the text of the failure when
    there is one, and the count ("2 errors occurred") when there are
    several. *)
Theorem invalid_business_name_is_client_error
        (env : Env) (req : Request) (s : Session) :
  method req = Some POST ->
  session_provider env = inr s ->
  name_empty_or_too_long (businessName (body req)) ->
  let failures :=
    (businessName_failures (businessName (body req))
     ++ skipOnboarding_failures (isDemoMode env)
                                (skipOnboarding (body req)))%list in
  validation_errors (validationSchema (isDemoMode env)) (body req)
    = failures
  /\ 1 <= List.length (businessName_failures (businessName (body req)))
  /\ serve env req =
     ([CallGetSession],
      inr (mkResponse 400
             (mkApiResponse false None
                (Some (mkErrorBody
                         (match failures with
                          | [failure] => failure
                          | _ => lit (decimal (List.length failures)
                                      ++ " errors occurred")
                          end) None))))).
Proof.
  intros Hm Hs Hbad failures.
  assert (Hone : 1 <= List.length
                        (businessName_failures (businessName (body req)))).
  { destruct (businessName_failures_invalid _ Hbad) as [m ->].
    apply Nat.le_refl. }
  pose proof (validation_errors_equation (isDemoMode env) (body req))
    as Heq.
  fold failures in Heq.
  split; [exact Heq |]. split; [exact Hone |].
  assert (Hne : validation_errors (validationSchema (isDemoMode env))
                                  (body req) <> []).
  { rewrite Heq. unfold failures.
    destruct (businessName_failures (businessName (body req)));
      [cbn in Hone; lia | discriminate]. }
  rewrite (serve_post env req Hm), onboard_equation, Hs.
  rewrite (validate_rejects _ _ Hne), Heq.
  unfold client_error. do 6 f_equal.
  unfold Yup.ValidationError_message.
  destruct failures as [| f1 [| f2 rest]];
    [exfalso; apply Hne; exact Heq | reflexivity | reflexivity].
Qed.

Lemma invalid_business_name_is_client_error_witness :
  method (post (Some (repeat 97%N 256)) None) = Some POST
  /\ session_provider (sample_env true) = inr sample_session
  /\ name_empty_or_too_long
       (businessName (body (post (Some (repeat 97%N 256)) None)))
  /\ serve (sample_env true) (post (Some (repeat 97%N 256)) None) =
     ([CallGetSession],
      inr (mkResponse 400
             (mkApiResponse false None
                (Some (mkErrorBody (lit "2 errors occurred") None))))).
Proof.
  assert (Hbad : name_empty_or_too_long
            (businessName (body (post (Some (repeat 97%N 256)) None))))
    by (right; vm_compute; lia).
  pose proof (invalid_business_name_is_client_error
                (sample_env true) (post (Some (repeat 97%N 256)) None)
                sample_session eq_refl eq_refl Hbad) as [_ [_ Hres]].
  split; [reflexivity |]. split; [reflexivity |].
  split; [exact Hbad | exact Hres].
Defined.

(** C5: when a POST request leaves the skip-onboarding choice out, then
    in demo mode validation fails on it and the request is answered with
    the client error; outside demo mode the choice is not looked at, and
    the body passes validation exactly when its business name is
    valid. *)
Theorem skip_choice_required_only_in_demo_mode
        (env : Env) (req : Request) (s : Session) :
  method req = Some POST ->
  session_provider env = inr s ->
  skipOnboarding (body req) = None ->
  (isDemoMode env = true ->
   In (lit "Skip onboarding choice required")
      (validation_errors (validationSchema (isDemoMode env)) (body req))
   /\ ~ passes_validation env (body req)
   /\ serve env req =
      ([CallGetSession],
       inr (mkResponse 400
              (mkApiResponse false None
                 (Some (mkErrorBody
                          (Yup.ValidationError_message
                             (validation_errors
                                (validationSchema (isDemoMode env))
                                (body req)))
                          None))))))
  /\ (isDemoMode env = false ->
      (passes_validation env (body req)
       <-> name_valid (businessName (body req)))).
Proof.
  intros Hm Hs Hskip. split; intros Hdemo.
  - assert (Hin : In (lit "Skip onboarding choice required")
                     (validation_errors (validationSchema (isDemoMode env))
                                        (body req))).
    { rewrite validation_errors_equation, Hdemo, Hskip.
      apply in_or_app. right. left. reflexivity. }
    split; [exact Hin |]. split.
    + intros Hpass. apply passes_validation_iff in Hpass.
      destruct Hpass as [_ Hsome]. exact (Hsome Hdemo Hskip).
    + assert (Hne : validation_errors (validationSchema (isDemoMode env))
                                      (body req) <> []).
      { intros Hnil. rewrite Hnil in Hin. exact Hin. }
      rewrite (serve_post env req Hm), onboard_equation, Hs.
      rewrite (validate_rejects _ _ Hne). reflexivity.
  - rewrite passes_validation_iff. split.
    + intros [Hname _]. exact Hname.
    + intros Hname. split; [exact Hname |].
      intros Htrue. rewrite Hdemo in Htrue. discriminate.
Qed.

Lemma skip_choice_required_only_in_demo_mode_witness :
  serve (sample_env true) (post (Some (lit "Acme Rockets")) None) =
    ([CallGetSession],
     inr (client_error (lit "Skip onboarding choice required")))
  /\ passes_validation (sample_env false)
                       (body (post (Some (lit "Acme Rockets")) None)).
Proof.
  split.
  - pose proof (skip_choice_required_only_in_demo_mode
                  (sample_env true) (post (Some (lit "Acme Rockets")) None)
                  sample_session eq_refl eq_refl eq_refl) as [Hdemo _].
    destruct (Hdemo eq_refl) as [_ [_ Hres]]. exact Hres.
  - pose proof (skip_choice_required_only_in_demo_mode
                  (sample_env false) (post (Some (lit "Acme Rockets")) None)
                  sample_session eq_refl eq_refl eq_refl) as [_ Hlive].
    apply (Hlive eq_refl).
    exists (lit "Acme Rockets").
    split; [reflexivity | vm_compute; lia].
Defined.

(** *** Failures of the outside world *)

(** C8: whatever [onboard] throws is caught and answered with status
    500, [success = false] and an error made of the message and the stack
    of what was thrown.  That covers each external call that can throw
    on the way: the session lookup, the account update, and the request
    for the onboarding URL. *)
Theorem other_failures_are_server_errors
        (env : Env) (req : Request) (e : Error) :
  method req = Some POST ->
  (forall log, onboard env req [] = (log, inl e) ->
               serve env req =
               (log, inr (mkResponse 500
                            (mkApiResponse false None
                               (Some (mkErrorBody (error_message e)
                                                  (error_stack e)))))))
  /\ (session_provider env = inl e ->
      serve env req = ([CallGetSession], inr (server_error e)))
  /\ (forall s,
        session_provider env = inr s ->
        passes_validation env (body req) ->
        let params :=
          onboardingData env (email s) (businessName (body req))
                         (skipOnboarding (body req)) in
        let update := CallAccountsUpdate (accountId s) params in
        (payments_update env (accountId s) params = inl e ->
         serve env req = ([CallGetSession; update], inr (server_error e)))
        /\ (payments_update env (accountId s) params = inr tt ->
            skips env (body req) = false ->
            payments_onboarding_url env (accountId s) = inl e ->
            serve env req =
            ([CallGetSession; update;
              CallCreateOnboardingUrl (accountId s)],
             inr (server_error e)))).
Proof.
  intros Hm. rewrite (serve_post env req Hm).
  split; [intros log ->; reflexivity |].
  rewrite onboard_equation. split.
  - intros ->. reflexivity.
  - intros s -> Hpass params update. unfold passes_validation in Hpass.
    rewrite Hpass. subst params update. cbv zeta. split.
    + intros ->. reflexivity.
    + intros -> -> ->. reflexivity.
Qed.

Lemma other_failures_are_server_errors_witness :
  serve (refusing_env false) (post (Some (lit "Acme Rockets")) None) =
  ([CallGetSession;
    CallAccountsUpdate (accountId sample_session)
      (VObj [("business_profile",
              VObj [("name", VStr (lit "Acme Rockets"))])])],
   inr (mkResponse 500
          (mkApiResponse false None
             (Some (mkErrorBody
                      (lit "No such account: acct_1032D82eZvKYlo2C")
                      (Some (lit "StripeInvalidRequestError: No such account"))))))).
Proof.
  pose proof (other_failures_are_server_errors
                (refusing_env false) (post (Some (lit "Acme Rockets")) None)
                sample_error eq_refl) as [_ [_ Hcalls]].
  destruct (Hcalls sample_session eq_refl eq_refl) as [Hupdate _].
  exact (Hupdate eq_refl).
Defined.

(** *** Requests that go through *)

(** Outside demo mode the literal is the business profile alone. *)
Lemma onboardingData_live (env : Env) (email : jsstring)
      (name : option jsstring) (skip : option bool) :
  isDemoMode env = false ->
  onboardingData env email name skip =
  VObj [("business_profile", VObj [("name", undefined_or_string name)])].
Proof. intros Hdemo. unfold onboardingData. rewrite Hdemo. reflexivity. Qed.

(** In demo mode the spread replaces the business profile and adds the
    placeholder data; the top-level acceptance is there when [skip] is
    [true]. *)
Lemma onboardingData_demo (env : Env) (email : jsstring)
      (name : option jsstring) (skip : option bool) :
  isDemoMode env = true ->
  onboardingData env email name skip =
  VObj (
    [ ("business_profile",
       VObj [ ("mcc", VStr (lit "5734"));
              ("product_description", VStr (lit "Some demo product"));
              ("url", VStr (lit "https://some-company.com")) ]);
      ("business_type", VStr (lit "individual"));
      ("individual",
       VObj [ ("address",
               VObj [ ("line1", VStr (lit "address_full_match"));
                      ("city", VStr (lit "South San Francisco"));
                      ("state", VStr (lit "CA"));
                      ("postal_code", VStr (lit "94080"));
                      ("country", VStr (lit "US")) ]);
              ("dob", VObj [ ("day", VNum 1); ("month", VNum 1);
                             ("year", VNum 1901) ]);
              ("email", VStr email);
              ("first_name", VStr (lit "John"));
              ("last_name", VStr (lit "Smith"));
              ("phone", VStr (lit "0000000000")) ]) ]
    ++ match skip with
       | Some true => [ ("tos_acceptance", TOS_ACCEPTANCE env) ]
       | _ => []
       end
    ++ [ ("settings",
          VObj [ ("card_issuing",
                  VObj [ ("tos_acceptance", TOS_ACCEPTANCE env) ]);
                 ("treasury",
                  VObj [ ("tos_acceptance", TOS_ACCEPTANCE env) ]) ]) ])%list.
Proof.
  intros Hdemo. unfold onboardingData. rewrite Hdemo.
  destruct skip as [[] |]; reflexivity.
Qed.

(** C2: outside demo mode, a valid POST request (with the session there
    and the payments API answering) makes one account-update call whose
    parameters are the business name and nothing else, then one request
    for the onboarding URL, and is answered with success and that URL as
    the redirect target. *)
Theorem live_request_updates_name_then_asks_url
        (env : Env) (req : Request) (s : Session)
        (name url : jsstring) :
  method req = Some POST ->
  isDemoMode env = false ->
  session_provider env = inr s ->
  businessName (body req) = Some name ->
  passes_validation env (body req) ->
  let params :=
    VObj [("business_profile", VObj [("name", VStr name)])] in
  payments_update env (accountId s) params = inr tt ->
  payments_onboarding_url env (accountId s) = inr url ->
  serve env req =
  ([ CallGetSession;
     CallAccountsUpdate (accountId s) params;
     CallCreateOnboardingUrl (accountId s) ],
   inr (mkResponse 200
          (mkApiResponse true (Some (mkData url)) None))).
Proof.
  intros Hm Hdemo Hs Hname Hpass params Hupdate Hurl.
  unfold passes_validation in Hpass.
  rewrite (serve_post env req Hm), onboard_equation, Hs, Hpass.
  cbv zeta. rewrite (onboardingData_live _ _ _ _ Hdemo), Hname.
  cbn [undefined_or_string]. fold params. rewrite Hupdate.
  unfold skips. rewrite Hdemo. cbn [js_and truthy].
  rewrite Hurl. reflexivity.
Qed.

Lemma live_request_updates_name_then_asks_url_witness :
  passes_validation (sample_env false)
                    (body (post (Some (lit "Acme Rockets")) (Some true)))
  /\ serve (sample_env false) (post (Some (lit "Acme Rockets")) (Some true)) =
     ([ CallGetSession;
        CallAccountsUpdate (accountId sample_session)
          (VObj [("business_profile",
                  VObj [("name", VStr (lit "Acme Rockets"))])]);
        CallCreateOnboardingUrl (accountId sample_session) ],
      inr (mkResponse 200
             (mkApiResponse true (Some (mkData sample_url)) None))).
Proof.
  assert (Hpass : passes_validation (sample_env false)
            (body (post (Some (lit "Acme Rockets")) (Some true))))
    by reflexivity.
  split; [exact Hpass |].
  exact (live_request_updates_name_then_asks_url
           (sample_env false) (post (Some (lit "Acme Rockets")) (Some true))
           sample_session (lit "Acme Rockets") sample_url
           eq_refl eq_refl eq_refl eq_refl Hpass eq_refl eq_refl).
Defined.

(** C3: in demo mode, a valid POST request with [skipOnboarding = true]
    (and the session there) makes the session lookup and one account
    update, and never asks for an onboarding URL; the update carries the
    placeholder business type, business profile, individual and
    terms-of-service data; and when the update goes through, the answer
    is success with the home page "/" as the redirect target. *)
Theorem demo_skip_updates_kyc_and_redirects_home
        (env : Env) (req : Request) (s : Session) (name : jsstring) :
  method req = Some POST ->
  isDemoMode env = true ->
  session_provider env = inr s ->
  businessName (body req) = Some name ->
  skipOnboarding (body req) = Some true ->
  passes_validation env (body req) ->
  let params := onboardingData env (email s) (Some name) (Some true) in
  fst (serve env req) =
    [ CallGetSession; CallAccountsUpdate (accountId s) params ]
  /\ at_path params ["business_type"] = Some (VStr (lit "individual"))
  /\ at_path params ["business_profile"] =
     Some (VObj [ ("mcc", VStr (lit "5734"));
                  ("product_description", VStr (lit "Some demo product"));
                  ("url", VStr (lit "https://some-company.com")) ])
  /\ at_path params ["individual"] =
     Some (VObj [ ("address",
                   VObj [ ("line1", VStr (lit "address_full_match"));
                          ("city", VStr (lit "South San Francisco"));
                          ("state", VStr (lit "CA"));
                          ("postal_code", VStr (lit "94080"));
                          ("country", VStr (lit "US")) ]);
                  ("dob", VObj [ ("day", VNum 1); ("month", VNum 1);
                                 ("year", VNum 1901) ]);
                  ("email", VStr (email s));
                  ("first_name", VStr (lit "John"));
                  ("last_name", VStr (lit "Smith"));
                  ("phone", VStr (lit "0000000000")) ])
  /\ at_path params ["tos_acceptance"] = Some (TOS_ACCEPTANCE env)
  /\ at_path params ["settings"] =
     Some (VObj [ ("card_issuing",
                   VObj [ ("tos_acceptance", TOS_ACCEPTANCE env) ]);
                  ("treasury",
                   VObj [ ("tos_acceptance", TOS_ACCEPTANCE env) ]) ])
  /\ (payments_update env (accountId s) params = inr tt ->
      snd (serve env req) =
      inr (mkResponse 200
             (mkApiResponse true (Some (mkData (lit "/"))) None))).
Proof.
  intros Hm Hdemo Hs Hname Hskip Hpass params.
  unfold passes_validation in Hpass.
  rewrite (serve_post env req Hm), onboard_equation, Hs, Hpass.
  cbv zeta. rewrite Hname, Hskip. fold params.
  unfold skips. rewrite Hdemo, Hskip. cbn [js_and truthy undefined_or_boolean].
  assert (Hparams := onboardingData_demo env (email s) (Some name)
                                         (Some true) Hdemo).
  fold params in Hparams.
  split.
  { destruct (payments_update env (accountId s) params) as [e | []];
      reflexivity. }
  rewrite Hparams.
  do 5 (split; [reflexivity |]).
  rewrite <- Hparams. intros ->. reflexivity.
Qed.

Lemma demo_skip_updates_kyc_and_redirects_home_witness :
  passes_validation (sample_env true)
                    (body (post (Some (lit "Acme Rockets")) (Some true)))
  /\ serve (sample_env true) (post (Some (lit "Acme Rockets")) (Some true)) =
     ([ CallGetSession;
        CallAccountsUpdate (accountId sample_session)
          (onboardingData (sample_env true) (email sample_session)
                          (Some (lit "Acme Rockets")) (Some true)) ],
      inr (mkResponse 200
             (mkApiResponse true (Some (mkData (lit "/"))) None))).
Proof.
  assert (Hpass : passes_validation (sample_env true)
            (body (post (Some (lit "Acme Rockets")) (Some true))))
    by reflexivity.
  split; [exact Hpass |].
  pose proof (demo_skip_updates_kyc_and_redirects_home
                (sample_env true) (post (Some (lit "Acme Rockets")) (Some true))
                sample_session (lit "Acme Rockets")
                eq_refl eq_refl eq_refl eq_refl eq_refl Hpass)
    as [Hlog [_ [_ [_ [_ [_ Hres]]]]]].
  rewrite (surjective_pairing (serve _ _)), Hlog, (Hres eq_refl).
  reflexivity.
Defined.

(** *** The parameters of the account update *)

(** The calls of one request: nothing, or the session lookup, then at
    most one account update with the literal of [onboard] as parameters,
    then at most one request for the onboarding URL. *)
Lemma serve_log_shape (env : Env) (req : Request) :
  fst (serve env req) = []
  \/ fst (serve env req) = [CallGetSession]
  \/ exists s,
       session_provider env = inr s
       /\ passes_validation env (body req)
       /\ let update :=
            CallAccountsUpdate (accountId s)
              (onboardingData env (email s) (businessName (body req))
                              (skipOnboarding (body req))) in
          fst (serve env req) = [CallGetSession; update]
          \/ fst (serve env req) =
             [CallGetSession; update;
              CallCreateOnboardingUrl (accountId s)].
Proof.
  destruct (method_dec (method req)) as [Hm | Hm];
    [| rewrite (serve_other env req Hm); left; reflexivity].
  rewrite (serve_post env req Hm), onboard_equation.
  destruct (session_provider env) as [e | s] eqn:Hs;
    [right; left; reflexivity |].
  destruct (validate _ _) as [msg | []] eqn:Hv;
    [right; left; reflexivity |].
  right; right. exists s. split; [reflexivity |]. split; [exact Hv |].
  cbv zeta.
  destruct (payments_update env _ _) as [e | []];
    [left; reflexivity |].
  destruct (skips env (body req)); [left; reflexivity |].
  destruct (payments_onboarding_url env _); right; reflexivity.
Qed.

(** Every account update that the handler sends carries the literal of
    [onboard], built from a body that passed validation. *)
Lemma update_call_params (env : Env) (req : Request)
      (account : jsstring) (params : value) :
  In (CallAccountsUpdate account params) (fst (serve env req)) ->
  exists s,
    session_provider env = inr s
    /\ passes_validation env (body req)
    /\ account = accountId s
    /\ params = onboardingData env (email s) (businessName (body req))
                               (skipOnboarding (body req)).
Proof.
  intros Hin.
  destruct (serve_log_shape env req) as [H | [H | [s [Hs [Hv H]]]]].
  - rewrite H in Hin. destruct Hin.
  - rewrite H in Hin. destruct Hin as [Hin | []]. discriminate.
  - exists s. split; [exact Hs |]. split; [exact Hv |].
    cbv zeta in H.
    destruct H as [H | H]; rewrite H in Hin; cbn [In] in Hin.
    + destruct Hin as [Hin | [Hin | []]]; [discriminate |].
      injection Hin as <- <-. split; reflexivity.
    + destruct Hin as [Hin | [Hin | [Hin | []]]];
        [discriminate | | discriminate].
      injection Hin as <- <-. split; reflexivity.
Qed.

(** C1, evaluated: the business profile that the update carries has the
    submitted name outside demo mode and no name at all in demo mode,
    where the spread replaces the whole [business_profile] property; so
    the update sent for a valid demo request does not set the business
    name. *)
Theorem demo_update_drops_business_name :
  (forall env email name skip,
      at_path (onboardingData env email (Some name) skip)
              ["business_profile"; "name"]
      = if isDemoMode env then None else Some (VStr name))
  /\ (exists params,
        serve (sample_env true) (post (Some (lit "Acme Rockets")) (Some false))
        = ([ CallGetSession;
             CallAccountsUpdate (accountId sample_session) params;
             CallCreateOnboardingUrl (accountId sample_session) ],
           inr (redirect_to sample_url))
        /\ at_path params ["business_profile"] =
           Some (VObj [ ("mcc", VStr (lit "5734"));
                        ("product_description",
                         VStr (lit "Some demo product"));
                        ("url", VStr (lit "https://some-company.com")) ])
        /\ at_path params ["business_profile"; "name"] = None).
Proof.
  split.
  - intros env email name skip.
    destruct (isDemoMode env) eqn:Hdemo.
    + rewrite (onboardingData_demo _ _ _ _ Hdemo). reflexivity.
    + rewrite (onboardingData_live _ _ _ _ Hdemo). reflexivity.
  - eexists. split; [reflexivity |]. split; reflexivity.
Qed.

(** C10: in demo mode the top-level [tos_acceptance] is part of the
    parameters exactly when [skipOnboarding] is [true], whereas the
    acceptances under [settings.card_issuing] and [settings.treasury] are
    there for every value of [skipOnboarding]. *)
Theorem demo_tos_acceptance_fields
        (env : Env) (email : jsstring) (name : option jsstring)
        (skip : option bool) :
  isDemoMode env = true ->
  let params := onboardingData env email name skip in
  (In "tos_acceptance" (keys params) <-> skip = Some true)
  /\ at_path params ["tos_acceptance"] =
     match skip with
     | Some true => Some (TOS_ACCEPTANCE env)
     | _ => None
     end
  /\ at_path params ["settings"; "card_issuing"; "tos_acceptance"] =
     Some (TOS_ACCEPTANCE env)
  /\ at_path params ["settings"; "treasury"; "tos_acceptance"] =
     Some (TOS_ACCEPTANCE env).
Proof.
  intros Hdemo params. subst params.
  rewrite (onboardingData_demo _ _ _ _ Hdemo).
  destruct skip as [[] |]; (split; [| repeat split]).
  - split; [reflexivity |]. intros _. cbn. tauto.
  - split; [| discriminate]. cbn.
    intros [H | [H | [H | [H | []]]]]; discriminate.
  - split; [| discriminate]. cbn.
    intros [H | [H | [H | [H | []]]]]; discriminate.
Qed.

Lemma demo_tos_acceptance_fields_witness :
  isDemoMode (sample_env true) = true
  /\ at_path (onboardingData (sample_env true) (lit "jenny@example.com")
                             (Some (lit "Acme Rockets")) (Some false))
             ["tos_acceptance"] = None
  /\ at_path (onboardingData (sample_env true) (lit "jenny@example.com")
                             (Some (lit "Acme Rockets")) (Some false))
             ["settings"; "treasury"; "tos_acceptance"] = Some sample_tos.
Proof.
  pose proof (demo_tos_acceptance_fields
                (sample_env true) (lit "jenny@example.com")
                (Some (lit "Acme Rockets")) (Some false) eq_refl)
    as [_ [Htop [_ Htreasury]]].
  split; [reflexivity |]. split; [exact Htop | exact Htreasury].
Defined.

End OnboardProps.

(** ** Properties of the registration form *)

Module RegisterProps.
Import Register.

(** C6: the password rules reject "abc" with three failures at once
    (too short, no digit, no uppercase letter), each with a message of
    its own, and find nothing wrong with "Abcdefg1". *)
Theorem password_rules_examples (rEmail : jsstring -> bool) :
  let too_short := lit "Password must have at least 8 characters" in
  let no_digit := lit "Your password must have at least 1 digit character" in
  let no_uppercase :=
    lit "Your password must have at least 1 uppercase character" in
  password_errors rEmail (Some (lit "abc"))
    = [too_short; no_digit; no_uppercase]
  /\ NoDup [too_short; no_digit; no_uppercase]
  /\ password_errors rEmail (Some (lit "Abcdefg1")) = [].
Proof.
  cbv zeta. split; [reflexivity |]. split; [| reflexivity].
  repeat constructor; cbn [In]; intros H;
    repeat (destruct H as [H | H]; [discriminate H |]); exact H.
Qed.

End RegisterProps.

(** ** Facts about collecting failures *)

Module YupFacts.
Import Yup.

Section FieldErrors.
Context {V : Type}.
Implicit Types (tests : list (Test V)) (t : Test V) (v : option V).

(** Nothing is collected exactly when every test passes. *)
Lemma field_errors_nil tests v :
  field_errors tests v = [] <->
  forall t, In t tests -> test_passes t v = true.
Proof.
  unfold field_errors. induction tests as [| t0 tests IH]; cbn [filter map].
  - split; [intros _ t [] | reflexivity].
  - destruct (test_passes t0 v) eqn:E; cbn [negb map].
    + rewrite IH. split.
      * intros H t [<- | Hin]; [exact E | exact (H t Hin)].
      * intros H t Hin. apply H. right. exact Hin.
    + split; [discriminate |].
      intros H. specialize (H t0 (or_introl eq_refl)). congruence.
Qed.

(** A message is collected when one of the tests that carry it fails. *)
Lemma field_errors_In tests v (m : jsstring) :
  In m (field_errors tests v) <->
  exists t, In t tests /\ test_message t = m /\ test_passes t v = false.
Proof.
  unfold field_errors. rewrite in_map_iff. split.
  - intros [t [Hm Hin]]. apply filter_In in Hin. destruct Hin as [Hin Hf].
    exists t. repeat split; try assumption.
    destruct (test_passes t v); [discriminate | reflexivity].
  - intros [t [Hin [Hm Hf]]]. exists t. split; [exact Hm |].
    apply filter_In. split; [exact Hin |]. rewrite Hf. reflexivity.
Qed.

Lemma message_determines_test tests t t' :
  NoDup (map test_message tests) ->
  In t tests -> In t' tests -> test_message t = test_message t' -> t = t'.
Proof.
  induction tests as [| t0 tests IH]; cbn [map In]; [intros _ [] |].
  intros Hnd Ht Ht' Hm. inversion Hnd as [| m ms Hnotin Hnd']; subst.
  destruct Ht as [<- | Ht], Ht' as [<- | Ht'].
  - reflexivity.
  - exfalso. apply Hnotin. rewrite Hm. apply in_map. exact Ht'.
  - exfalso. apply Hnotin. rewrite <- Hm. apply in_map. exact Ht.
  - exact (IH Hnd' Ht Ht' Hm).
Qed.

(** When the tests of a field have messages of their own, the message of
    a test is collected exactly when that test fails. *)
Lemma field_errors_reports tests t v :
  NoDup (map test_message tests) ->
  In t tests ->
  (In (test_message t) (field_errors tests v) <-> test_passes t v = false).
Proof.
  intros Hnd Hin. rewrite field_errors_In. split.
  - intros [t' [Hin' [Hm Hf]]].
    rewrite (message_determines_test tests t t' Hnd Hin Hin' (eq_sym Hm)).
    exact Hf.
  - intros Hf. exists t. repeat split; assumption.
Qed.

End FieldErrors.

(** [search] finds a code unit of the class. *)
Lemma search_true (lo hi : ascii) (s : jsstring) :
  search (mkClass lo hi) s = true <->
  exists c, In c s /\ (N_of_ascii lo <= c)%N /\ (c <= N_of_ascii hi)%N.
Proof.
  unfold search. rewrite existsb_exists. cbn [class_lo class_hi].
  split; intros [c [Hin H]]; exists c; (split; [exact Hin |]).
  - apply andb_true_iff in H. destruct H as [H1 H2].
    split; apply N.leb_le; assumption.
  - destruct H as [H1 H2]. apply andb_true_iff.
    split; apply N.leb_le; assumption.
Qed.

End YupFacts.

(** ** More about the registration form *)

Module RegisterRulesProps.
Import Yup Register RegisterRules YupFacts.

Lemma password_messages_distinct (rEmail : jsstring -> bool) :
  NoDup (map test_message (shape_password (validationSchema rEmail))).
Proof.
  vm_compute.
  repeat constructor; cbn [In]; intros H;
    repeat (destruct H as [H | H]; [discriminate H |]); exact H.
Qed.

Lemma length_zero_eqb (s : jsstring) :
  negb (Nat.eqb (List.length s) 0) = true <-> 1 <= List.length s.
Proof.
  rewrite negb_true_iff, Nat.eqb_neq. lia.
Qed.

(** X11: a password is let through exactly when it has between
    8 and 255 code units and contains a digit, a lowercase letter and an
    uppercase letter; in particular a password left empty is not. *)
Theorem password_accepted_exactly_when
        (rEmail : jsstring -> bool) (p : option jsstring) :
  password_errors rEmail p = [] <-> acceptable_password p.
Proof.
  unfold password_errors, acceptable_password. rewrite field_errors_nil.
  unfold validationSchema, shape_password, has_digit, has_lowercase,
    has_uppercase, has_char_between.
  split.
  - intros H.
    pose proof (H _ (or_introl eq_refl)) as Hmax.
    pose proof (H _ (or_intror (or_introl eq_refl))) as Hreq.
    pose proof (H _ (or_intror (or_intror (or_introl eq_refl)))) as Hmin.
    pose proof (H _ (or_intror (or_intror (or_intror (or_introl eq_refl)))))
      as Hdig.
    pose proof (H _ (or_intror (or_intror (or_intror
                       (or_intror (or_introl eq_refl)))))) as Hlow.
    pose proof (H _ (or_intror (or_intror (or_intror
                       (or_intror (or_intror (or_introl eq_refl)))))))
      as Hupp.
    clear H. destruct p as [s |]; [| discriminate Hreq].
    cbn [test_passes string_max string_min string_matches] in *.
    apply Nat.leb_le in Hmax, Hmin.
    exists s. split; [reflexivity |]. split; [lia |].
    unfold re_digit, re_lowercase, re_uppercase in *.
    rewrite search_true in Hdig, Hlow, Hupp. auto.
  - intros [s [-> [[Hlo Hhi] [Hdig [Hlow Hupp]]]]] t Hin.
    rewrite <- search_true in Hdig, Hlow, Hupp.
    cbn [In] in Hin.
    destruct Hin as [<- | [<- | [<- | [<- | [<- | [<- | []]]]]]];
      cbn [test_passes string_max string_min string_matches string_required].
    + apply Nat.leb_le. exact Hhi.
    + apply length_zero_eqb. lia.
    + apply Nat.leb_le. exact Hlo.
    + exact Hdig.
    + exact Hlow.
    + exact Hupp.
Qed.

(** X12: each message of the password field is reported exactly when the rule
    it belongs to is broken, whatever else is wrong with the password. *)
Theorem password_failure_reported_iff_rule_broken
        (rEmail : jsstring -> bool) (s : jsstring) :
  let failures := password_errors rEmail (Some s) in
  (In (lit "password must be at most 255 characters") failures
   <-> 255 < List.length s)
  /\ (In (lit "Password is required") failures <-> List.length s = 0)
  /\ (In (lit "Password must have at least 8 characters") failures
      <-> List.length s < 8)
  /\ (In (lit "Your password must have at least 1 digit character") failures
      <-> ~ has_digit s)
  /\ (In (lit "Your password must have at least 1 lowercase character")
         failures
      <-> ~ has_lowercase s)
  /\ (In (lit "Your password must have at least 1 uppercase character")
         failures
      <-> ~ has_uppercase s).
Proof.
  cbv zeta. unfold password_errors.
  pose proof (password_messages_distinct rEmail) as Hnd.
  pose proof (fun t Hin =>
                field_errors_reports
                  (shape_password (validationSchema rEmail)) t (Some s)
                  Hnd Hin) as Hrep.
  assert (Hclass : forall lo hi,
             search (mkClass lo hi) s = false
             <-> ~ has_char_between lo hi s).
  { intros lo hi. unfold has_char_between. rewrite <- search_true.
    destruct (search (mkClass lo hi) s); split; congruence. }
  repeat split.
  - intros H. apply (Hrep (string_max "password" 255)) in H;
      [| left; reflexivity].
    cbn [test_passes string_max] in H. apply Nat.leb_gt in H. exact H.
  - intros H. apply (Hrep (string_max "password" 255));
      [left; reflexivity |].
    cbn [test_passes string_max]. apply Nat.leb_gt. exact H.
  - intros H. apply (Hrep (string_required "Password is required")) in H;
      [| right; left; reflexivity].
    cbn [test_passes string_required] in H.
    apply negb_false_iff, Nat.eqb_eq in H. exact H.
  - intros H. apply (Hrep (string_required "Password is required"));
      [right; left; reflexivity |].
    cbn [test_passes string_required].
    apply negb_false_iff, Nat.eqb_eq. exact H.
  - intros H.
    apply (Hrep (string_min 8 "Password must have at least 8 characters"))
      in H; [| right; right; left; reflexivity].
    cbn [test_passes string_min] in H. apply Nat.leb_gt in H. exact H.
  - intros H.
    apply (Hrep (string_min 8 "Password must have at least 8 characters"));
      [right; right; left; reflexivity |].
    cbn [test_passes string_min]. apply Nat.leb_gt. exact H.
  - intros H.
    apply (Hrep (string_matches re_digit
                   (getCharacterValidationError "digit"))) in H;
      [| do 3 right; left; reflexivity].
    apply Hclass. exact H.
  - intros H.
    apply (Hrep (string_matches re_digit
                   (getCharacterValidationError "digit")));
      [do 3 right; left; reflexivity |].
    apply Hclass. exact H.
  - intros H.
    apply (Hrep (string_matches re_lowercase
                   (getCharacterValidationError "lowercase"))) in H;
      [| do 4 right; left; reflexivity].
    apply Hclass. exact H.
  - intros H.
    apply (Hrep (string_matches re_lowercase
                   (getCharacterValidationError "lowercase")));
      [do 4 right; left; reflexivity |].
    apply Hclass. exact H.
  - intros H.
    apply (Hrep (string_matches re_uppercase
                   (getCharacterValidationError "uppercase"))) in H;
      [| do 5 right; left; reflexivity].
    apply Hclass. exact H.
  - intros H.
    apply (Hrep (string_matches re_uppercase
                   (getCharacterValidationError "uppercase")));
      [do 5 right; left; reflexivity |].
    apply Hclass. exact H.
Qed.

(** X13: the whole form is free of failures exactly when the e-mail address is
    there, has at most 255 code units and matches the e-mail expression,
    and the password is an acceptable one. *)
Theorem registration_form_valid_exactly_when
        (rEmail : jsstring -> bool) (v : Values) :
  validation_errors rEmail v = [] <->
  acceptable_email rEmail (email v) /\ acceptable_password (password v).
Proof.
  unfold validation_errors.
  rewrite <- password_accepted_exactly_when with (rEmail := rEmail).
  split.
  - intros H. apply app_eq_nil in H. destruct H as [He Hp].
    split; [| exact Hp].
    rewrite field_errors_nil in He.
    unfold validationSchema, shape_email in He.
    pose proof (He _ (or_introl eq_refl)) as Hre.
    pose proof (He _ (or_intror (or_introl eq_refl))) as Hmax.
    pose proof (He _ (or_intror (or_intror (or_introl eq_refl)))) as Hreq.
    clear He. unfold acceptable_email.
    destruct (email v) as [e |]; [| discriminate Hreq].
    cbn [test_passes string_email string_max string_required] in *.
    apply Nat.leb_le in Hmax. apply length_zero_eqb in Hreq.
    exists e. split; [reflexivity |]. split; [lia |].
    destruct (Nat.eqb (List.length e) 0) eqn:E0;
      [apply Nat.eqb_eq in E0; lia | exact Hre].
  - intros [[e [He [[Hlo Hhi] Hre]]] Hp]. rewrite Hp, app_nil_r.
    apply field_errors_nil. rewrite He.
    unfold validationSchema, shape_email. intros t Hin. cbn [In] in Hin.
    destruct Hin as [<- | [<- | [<- | []]]];
      cbn [test_passes string_email string_max string_required].
    + rewrite Hre. apply orb_true_r.
    + apply Nat.leb_le. exact Hhi.
    + apply length_zero_eqb. exact Hlo.
Qed.

Lemma list_ascii_of_string_app (a b : string) :
  list_ascii_of_string (a ++ b) =
  (list_ascii_of_string a ++ list_ascii_of_string b)%list.
Proof.
  induction a as [| c a IH]; cbn; [reflexivity | rewrite IH; reflexivity].
Qed.

(** X14: the messages about missing kinds of character tell the kinds apart:
    two kinds have the same message only when they are the same kind. *)
Theorem character_messages_tell_kinds_apart (kind kind' : string) :
  getCharacterValidationError kind = getCharacterValidationError kind'
  <-> kind = kind'.
Proof.
  split; [| intros ->; reflexivity].
  unfold getCharacterValidationError. intros H.
  apply (f_equal list_ascii_of_string) in H.
  rewrite !list_ascii_of_string_app in H.
  apply app_inv_head, app_inv_tail in H.
  rewrite <- (string_of_list_ascii_of_string kind),
          <- (string_of_list_ascii_of_string kind').
  rewrite H. reflexivity.
Qed.

End RegisterRulesProps.

(** ** More about the onboarding endpoint *)

Module OnboardFlow.
Import Onboard OnboardProps.

(** Every way a request can go, with what decided it left in the
    context. *)
Ltac serve_cases env req :=
  let Hm := fresh "Hm" in
  destruct (method_dec (method req)) as [Hm | Hm];
  [ rewrite (serve_post env req Hm), onboard_equation in *;
    let Hs := fresh "Hs" in
    let e := fresh "e" in
    let s := fresh "s" in
    destruct (session_provider env) as [e | s] eqn:Hs;
    [ | let Hv := fresh "Hv" in
        let msg := fresh "msg" in
        destruct (validate (validationSchema (isDemoMode env)) (body req))
          as [msg | []] eqn:Hv;
        [ | cbv zeta in *;
            let Hu := fresh "Hu" in
            destruct (payments_update env (accountId s) _)
              as [e | []] eqn:Hu;
            [ | let Hk := fresh "Hk" in
                destruct (skips env (body req)) eqn:Hk;
                [ | let Hurl := fresh "Hurl" in
                    let url := fresh "url" in
                    destruct (payments_onboarding_url env (accountId s))
                      as [e | url] eqn:Hurl ] ] ] ]
  | rewrite (serve_other env req Hm) in * ].

Lemma ValidationError_message_one (m : jsstring) :
  Yup.ValidationError_message [m] = m.
Proof. reflexivity. Qed.

Lemma ValidationError_message_two (m1 m2 : jsstring) :
  Yup.ValidationError_message [m1; m2] = lit "2 errors occurred".
Proof. reflexivity. Qed.

(** X1: a body passes validation exactly when its business name is there with
    between 1 and 255 code units and, in demo mode, the skip-onboarding
    choice is given (either way). *)
Theorem validation_passes_exactly_when (demo : bool) (b : Body) :
  validate (validationSchema demo) b = inr tt <->
  (exists s, businessName b = Some s /\ 1 <= List.length s <= 255)
  /\ (demo = true -> exists choice, skipOnboarding b = Some choice).
Proof.
  unfold validate. rewrite validation_errors_equation.
  fold (name_valid (businessName b)).
  rewrite <- businessName_failures_valid.
  unfold skipOnboarding_failures.
  destruct (businessName_failures (businessName b)) as [| m ms];
    cbn [app].
  - destruct demo; [destruct (skipOnboarding b) as [choice |] |].
    + split; [| reflexivity]. intros _. split; [reflexivity | eauto].
    + split; [discriminate |]. intros [_ H].
      destruct (H eq_refl) as [choice Hc]. discriminate Hc.
    + split; [| reflexivity]. intros _. split; [reflexivity | discriminate].
  - split; [discriminate | intros [H _]; discriminate H].
Qed.

(** X2: the message of a rejected body is one of four: the failure of the
    business name alone, the failure of the skip-onboarding choice alone,
    or, when both fields fail, the count "2 errors occurred" in place of
    the two texts. *)
Theorem validation_message_cases (demo : bool) (b : Body) (msg : jsstring) :
  validate (validationSchema demo) b = inl msg ->
  let choice_fails := demo = true /\ skipOnboarding b = None in
  (msg = lit "Business name is required"
   /\ (businessName b = None \/ businessName b = Some [])
   /\ ~ choice_fails)
  \/ (msg = lit "businessName must be at most 255 characters"
      /\ (exists s, businessName b = Some s /\ 255 < List.length s)
      /\ ~ choice_fails)
  \/ (msg = lit "Skip onboarding choice required"
      /\ name_valid (businessName b) /\ choice_fails)
  \/ (msg = lit "2 errors occurred"
      /\ name_empty_or_too_long (businessName b) /\ choice_fails).
Proof.
  unfold validate. rewrite validation_errors_equation. cbv zeta.
  assert (Hskip : skipOnboarding_failures demo (skipOnboarding b) = []
                  /\ ~ (demo = true /\ skipOnboarding b = None)
                  \/ skipOnboarding_failures demo (skipOnboarding b)
                     = [lit "Skip onboarding choice required"]
                     /\ (demo = true /\ skipOnboarding b = None)).
  { unfold skipOnboarding_failures.
    destruct demo; [destruct (skipOnboarding b) |].
    - left. split; [reflexivity | intros [_ H]; discriminate H].
    - right. auto.
    - left. split; [reflexivity | intros [H _]; discriminate H]. }
  assert (Hname : businessName_failures (businessName b) = []
                  /\ name_valid (businessName b)
                  \/ businessName_failures (businessName b)
                     = [lit "Business name is required"]
                     /\ (businessName b = None \/ businessName b = Some [])
                  \/ businessName_failures (businessName b)
                     = [lit "businessName must be at most 255 characters"]
                     /\ exists s, businessName b = Some s
                                  /\ 255 < List.length s).
  { pose proof (businessName_failures_valid (businessName b)) as Hvalid.
    unfold businessName_failures in *.
    destruct (businessName b) as [s |]; [| right; left; auto].
    destruct (Nat.eqb (List.length s) 0) eqn:E0.
    - right; left. split; [reflexivity |]. right.
      apply Nat.eqb_eq in E0. destruct s; [reflexivity | discriminate E0].
    - destruct (Nat.ltb 255 (List.length s)) eqn:E1.
      + right; right. split; [reflexivity |]. exists s.
        apply Nat.ltb_lt in E1. auto.
      + left. split; [reflexivity |]. apply Hvalid. reflexivity. }
  destruct Hname as [[-> Hn] | [[-> Hn] | [-> Hn]]],
           Hskip as [[-> Hc] | [-> Hc]]; cbn [app]; intros H.
  - discriminate H.
  - rewrite ValidationError_message_one in H. injection H as <-.
    right; right; left. auto.
  - rewrite ValidationError_message_one in H. injection H as <-.
    left. auto.
  - rewrite ValidationError_message_two in H. injection H as <-.
    do 3 right. split; [reflexivity |]. split; [| exact Hc].
    destruct Hn as [-> | ->]; cbn; auto.
  - rewrite ValidationError_message_one in H. injection H as <-.
    right; left. auto.
  - rewrite ValidationError_message_two in H. injection H as <-.
    do 3 right. split; [reflexivity |]. split; [| exact Hc].
    destruct Hn as [s [-> Hlong]]. right. exact Hlong.
Qed.

Lemma validation_message_cases_witness :
  validate (validationSchema true) (mkBody None None)
    = inl (lit "2 errors occurred")
  /\ name_empty_or_too_long (businessName (mkBody None None)).
Proof.
  pose proof (validation_message_cases true (mkBody None None)
                (lit "2 errors occurred") eq_refl)
    as [[H _] | [[H _] | [[H _] | [_ [H _]]]]];
    try discriminate H.
  split; [reflexivity | exact H].
Defined.

(** *** What a response tells about what happened *)

(** X3: the handler answers every request, and with a well-formed envelope:
    status 200 goes with [success = true], a redirect target and no
    error; status 400 or 500 goes with [success = false], no data and an
    error, which carries details only at status 500 (and there only when
    what was thrown had a stack). *)
Theorem every_response_is_well_formed (env : Env) (req : Request) :
  exists log res,
    serve env req = (log, inr res)
    /\ ((status res = 200
         /\ success (json res) = true
         /\ (exists url, data (json res) = Some (mkData url))
         /\ error (json res) = None)
        \/ ((status res = 400 \/ status res = 500)
            /\ success (json res) = false
            /\ data (json res) = None
            /\ (exists eb, error (json res) = Some eb
                           /\ (status res = 400 -> details eb = None)))).
Proof.
  serve_cases env req; do 2 eexists; (split; [reflexivity |]); cbn;
    solve [ left; eauto 6
          | right; split; [auto |]; do 2 (split; [reflexivity |]);
            eexists; split; [reflexivity |];
            cbn; intros H; (reflexivity || discriminate H) ].
Qed.

(** X4: a success answer is sent only after the account update went through:
    status 200 means the method was POST, the session was there, the body
    passed validation and the update returned; and either the user skipped
    onboarding in demo mode and is sent to "/", or the onboarding URL was
    obtained and is the redirect target. *)
Theorem success_means_account_updated
        (env : Env) (req : Request) (log : list Call) (res : Response) :
  serve env req = (log, inr res) ->
  status res = 200 ->
  exists s,
    method req = Some POST
    /\ session_provider env = inr s
    /\ passes_validation env (body req)
    /\ let params :=
         onboardingData env (email s) (businessName (body req))
                        (skipOnboarding (body req)) in
       let update := CallAccountsUpdate (accountId s) params in
       payments_update env (accountId s) params = inr tt
       /\ ((skips env (body req) = true
            /\ log = [CallGetSession; update]
            /\ res = redirect_to (lit "/"))
           \/ (skips env (body req) = false
               /\ exists url,
                   payments_onboarding_url env (accountId s) = inr url
                   /\ log = [CallGetSession; update;
                             CallCreateOnboardingUrl (accountId s)]
                   /\ res = redirect_to url)).
Proof.
  intros Hrun Hstatus.
  serve_cases env req; injection Hrun as <- <-; cbn in Hstatus;
    try discriminate Hstatus.
  - exists s. unfold passes_validation.
    do 3 (split; [assumption || reflexivity |]).
    cbv zeta. split; [assumption |]. left. auto.
  - exists s. unfold passes_validation.
    do 3 (split; [assumption || reflexivity |]).
    cbv zeta. split; [assumption |]. right. eauto 6.
Qed.

Lemma success_means_account_updated_witness :
  exists s,
    session_provider (sample_env true) = inr s
    /\ payments_update (sample_env true) (accountId s)
         (onboardingData (sample_env true) (email s)
                         (Some (lit "Acme Rockets")) (Some false)) = inr tt.
Proof.
  destruct (success_means_account_updated
              (sample_env true) (post (Some (lit "Acme Rockets")) (Some false))
              _ _ eq_refl eq_refl) as [s [_ [Hs [_ [Hu _]]]]].
  exists s. split; [exact Hs | exact Hu].
Defined.



(** X6: a client error is sent only when the request was turned away before
    any call to the payments API: status 400 means either the method was
    not POST and nothing was called, or the session was there, the body
    failed validation, and the message is that of the validation error. *)
Theorem client_error_only_when_rejected
        (env : Env) (req : Request) (log : list Call) (res : Response) :
  serve env req = (log, inr res) ->
  status res = 400 ->
  (method req <> Some POST
   /\ log = []
   /\ res = client_error (lit "Bad Request"))
  \/ (method req = Some POST
      /\ log = [CallGetSession]
      /\ exists s msg,
          session_provider env = inr s
          /\ validate (validationSchema (isDemoMode env)) (body req)
             = inl msg
          /\ res = client_error msg).
Proof.
  intros Hrun Hstatus.
  serve_cases env req; injection Hrun as <- <-; cbn in Hstatus;
    try discriminate Hstatus.
  - right. split; [assumption |]. split; [reflexivity |]. eauto.
  - left. auto.
Qed.

Lemma client_error_only_when_rejected_witness :
  method (post (Some []) None) = Some POST
  /\ validate (validationSchema (isDemoMode (sample_env false)))
              (body (post (Some []) None))
     = inl (lit "Business name is required").
Proof.
  destruct (client_error_only_when_rejected
              (sample_env false) (post (Some []) None) _ _ eq_refl eq_refl)
    as [[Hm _] | [Hm [_ [s [msg [_ [Hv _]]]]]]].
  - exfalso. apply Hm. reflexivity.
  - split; [exact Hm | reflexivity].
Defined.

(** *** The calls to the payments API *)

(** X7: whenever an account update is sent, it is for the account of the
    session and carries the literal of [onboard], the body passed
    validation first, and it is the only update of the request: the calls
    are the session lookup, this update and at most the request for the
    onboarding URL. *)
Theorem account_update_is_for_session_account
        (env : Env) (req : Request) (account : jsstring) (params : value) :
  In (CallAccountsUpdate account params) (fst (serve env req)) ->
  exists s,
    session_provider env = inr s
    /\ passes_validation env (body req)
    /\ account = accountId s
    /\ params = onboardingData env (email s) (businessName (body req))
                               (skipOnboarding (body req))
    /\ (fst (serve env req)
          = [CallGetSession; CallAccountsUpdate account params]
        \/ fst (serve env req)
           = [CallGetSession; CallAccountsUpdate account params;
              CallCreateOnboardingUrl account]).
Proof.
  intros Hin.
  serve_cases env req; cbn [fst In] in Hin |- *;
    repeat (destruct Hin as [Hin | Hin]; try discriminate Hin);
    try contradiction;
    injection Hin as <- <-; exists s; unfold passes_validation; auto 6.
Qed.

Lemma account_update_is_for_session_account_witness :
  exists s,
    session_provider (refusing_env true) = inr s
    /\ accountId sample_session = accountId s.
Proof.
  destruct (account_update_is_for_session_account
              (refusing_env true) (post (Some (lit "Acme Rockets")) (Some true))
              (accountId sample_session)
              (onboardingData (refusing_env true) (email sample_session)
                              (Some (lit "Acme Rockets")) (Some true))
              (or_intror (or_introl eq_refl)))
    as [s [Hs [_ [Ha _]]]].
  exists s. split; [exact Hs | exact Ha].
Defined.

(** X8: the onboarding URL is asked for only once the account update has
    returned, for the same account, and never when the user skips
    onboarding in demo mode. *)
Theorem onboarding_url_only_after_update
        (env : Env) (req : Request) (account : jsstring) :
  In (CallCreateOnboardingUrl account) (fst (serve env req)) ->
  exists s,
    session_provider env = inr s
    /\ account = accountId s
    /\ passes_validation env (body req)
    /\ skips env (body req) = false
    /\ let params :=
         onboardingData env (email s) (businessName (body req))
                        (skipOnboarding (body req)) in
       payments_update env (accountId s) params = inr tt
       /\ fst (serve env req)
          = [CallGetSession; CallAccountsUpdate (accountId s) params;
             CallCreateOnboardingUrl (accountId s)].
Proof.
  intros Hin.
  serve_cases env req; cbn [fst In] in Hin |- *;
    repeat (destruct Hin as [Hin | Hin]; try discriminate Hin);
    try contradiction;
    injection Hin as <-; exists s; unfold passes_validation; auto 7.
Qed.

Lemma onboarding_url_only_after_update_witness :
  exists s,
    session_provider (sample_env true) = inr s
    /\ skips (sample_env true)
             (body (post (Some (lit "Acme Rockets")) (Some false))) = false.
Proof.
  destruct (onboarding_url_only_after_update
              (sample_env true) (post (Some (lit "Acme Rockets")) (Some false))
              (accountId sample_session)
              (or_intror (or_intror (or_introl eq_refl))))
    as [s [Hs [_ [_ [Hk _]]]]].
  exists s. split; [exact Hs | exact Hk].
Defined.

(** *** The two modes *)

(** X9: in demo mode, a valid POST request that does not skip onboarding
    (with the session there and the payments API answering) sends the
    placeholder data without the top-level terms-of-service acceptance,
    then asks for the onboarding URL and answers with it as the redirect
    target. *)
Theorem demo_request_without_skip_asks_url
        (env : Env) (req : Request) (s : Session) (name url : jsstring) :
  method req = Some POST ->
  isDemoMode env = true ->
  session_provider env = inr s ->
  businessName (body req) = Some name ->
  skipOnboarding (body req) = Some false ->
  passes_validation env (body req) ->
  let params := onboardingData env (email s) (Some name) (Some false) in
  payments_update env (accountId s) params = inr tt ->
  payments_onboarding_url env (accountId s) = inr url ->
  serve env req =
    ([ CallGetSession;
       CallAccountsUpdate (accountId s) params;
       CallCreateOnboardingUrl (accountId s) ],
     inr (mkResponse 200 (mkApiResponse true (Some (mkData url)) None)))
  /\ keys params
     = ["business_profile"; "business_type"; "individual"; "settings"].
Proof.
  intros Hm Hdemo Hs Hname Hskip Hpass params Hupdate Hurl.
  unfold passes_validation in Hpass.
  rewrite (serve_post env req Hm), onboard_equation, Hs, Hpass.
  cbv zeta. rewrite Hname, Hskip. fold params. rewrite Hupdate.
  unfold skips. rewrite Hdemo, Hskip.
  cbn [js_and truthy undefined_or_boolean]. rewrite Hurl.
  split; [reflexivity |].
  subst params. rewrite (onboardingData_demo _ _ _ _ Hdemo). reflexivity.
Qed.

Lemma demo_request_without_skip_asks_url_witness :
  serve (sample_env true) (post (Some (lit "Acme Rockets")) (Some false)) =
  ([ CallGetSession;
     CallAccountsUpdate (accountId sample_session)
       (onboardingData (sample_env true) (email sample_session)
                       (Some (lit "Acme Rockets")) (Some false));
     CallCreateOnboardingUrl (accountId sample_session) ],
   inr (redirect_to sample_url)).
Proof.
  exact (proj1 (demo_request_without_skip_asks_url
                  (sample_env true)
                  (post (Some (lit "Acme Rockets")) (Some false))
                  sample_session (lit "Acme Rockets") sample_url
                  eq_refl eq_refl eq_refl eq_refl eq_refl eq_refl
                  eq_refl eq_refl)).
Defined.

(** X10: outside demo mode the skip-onboarding choice changes nothing: the
    same request with any other choice, or none, makes the same calls and
    gets the same answer. *)
Theorem skip_choice_ignored_outside_demo
        (env : Env) (req : Request) (skip : option bool) :
  isDemoMode env = false ->
  serve env (with_skip req skip) = serve env req.
Proof.
  intros Hdemo.
  assert (Hv : validate (validationSchema (isDemoMode env))
                        (body (with_skip req skip))
               = validate (validationSchema (isDemoMode env)) (body req)).
  { unfold validate. rewrite !validation_errors_equation, Hdemo.
    reflexivity. }
  assert (Hk : forall b, skips env b = false).
  { intros b. unfold skips. rewrite Hdemo. reflexivity. }
  destruct (method_dec (method req)) as [Hm | Hm].
  - rewrite (serve_post env req Hm), (serve_post env (with_skip req skip) Hm).
    rewrite (onboard_equation env req),
            (onboard_equation env (with_skip req skip)), Hv.
    clear Hv.
    destruct (session_provider env) as [e | s]; [reflexivity |].
    destruct (validate (validationSchema (isDemoMode env)) (body req))
      as [msg | []]; [reflexivity |].
    cbv zeta. rewrite !(onboardingData_live _ _ _ _ Hdemo), !Hk.
    reflexivity.
  - rewrite (serve_other env req Hm), (serve_other env (with_skip req skip) Hm).
    reflexivity.
Qed.

Lemma skip_choice_ignored_outside_demo_witness :
  serve (sample_env false) (post (Some (lit "Acme Rockets")) (Some true))
  = serve (sample_env false) (post (Some (lit "Acme Rockets")) None).
Proof.
  exact (skip_choice_ignored_outside_demo
           (sample_env false) (post (Some (lit "Acme Rockets")) None)
           (Some true) eq_refl).
Defined.

End OnboardFlow.
